(** * The embedding endpoint adapter of [services/app.py]

    The service is a FastAPI application with two routes, [GET /health]
    and [POST /embed], layered over one [SentenceTransformer] object that
    is loaded when the module is imported.  This file embeds the module
    and the part of its collaborators that the handlers rely on:

    - request bodies are JSON values, as [json.loads] produces them;
    - the declared schema [Texts] is the validator pydantic derives from
      the annotation [texts: list[str]];
    - the objects a handler manipulates are Python values, with numpy
      arrays kept as a shape and a row-major buffer;
    - handlers run in a small state-and-exception monad over the module
      globals and a log of the calls made to [model.encode];
    - the framework validates the body before the handler runs and
      renders the returned value as JSON after it;
    - the model itself ([SentenceTransformer], [encode]) is a parameter. *)

From Stdlib Require Import Floats.PrimFloat.
From stdpp Require Import gmap strings list fin_maps.

Set Default Proof Using "Type".
#[local] Set Warnings "-register-all".

(** ** JSON request bodies *)

Inductive json :=
| JNull
| JBool (b : bool)
| JInt (z : Z)
| JFloat (x : float)
| JStr (s : string)
| JArr (items : list json)
| JObj (fields : gmap string json).

(** ** Python values *)

(** A numpy array: its shape and its elements in row-major order.  numpy
    keeps [length nd_data = product nd_shape]; see [nd_wf]. *)
Record ndarray := NdArray { nd_shape : list nat; nd_data : list float }.

Inductive pyval :=
| PyFloat (x : float)            (* float *)
| PyStr (s : string)             (* str *)
| PyList (xs : list pyval)       (* list *)
| PyTuple (xs : list pyval)      (* tuple *)
| PyNdArray (a : ndarray)        (* numpy.ndarray *)
| NpFloat (x : float).           (* numpy floating scalar *)

(** Exceptions are identified by their class name. *)
Inductive pyexn := PyExn (cls : string).

Definition TypeError : pyexn := PyExn "TypeError".
Definition AttributeError : pyexn := PyExn "AttributeError".

(** The result of evaluating a Python expression. *)
Inductive outcome (A : Type) :=
| Return (a : A)
| Raise (e : pyexn).
Arguments Return {A} a.
Arguments Raise {A} e.

#[export] Instance outcome_ret : MRet outcome := @Return.
#[export] Instance outcome_bind : MBind outcome := fun A B k o =>
  match o with
  | Return a => k a
  | Raise e => Raise e
  end.

(** ** numpy: iteration and [tolist] *)

Definition size_of (shape : list nat) : nat := foldr Nat.mul 1 shape.

Definition nd_wf (a : ndarray) : Prop :=
  length (nd_data a) = size_of (nd_shape a).

(** [chunks n k l]: the first [n] consecutive blocks of [k] elements. *)
Fixpoint chunks {A} (n k : nat) (l : list A) : list (list A) :=
  match n with
  | 0 => []
  | S n' => take k l :: chunks n' k (drop k l)
  end.

(** The item found at one index of the first axis: a scalar when the
    array is one-dimensional, a view of one dimension less otherwise. *)
Definition nd_item (rest : list nat) (block : list float) : pyval :=
  match rest with
  | [] => NpFloat (nth 0 block 0%float)
  | _ :: _ => PyNdArray (NdArray rest block)
  end.

(** [iter(a)]: numpy refuses to iterate over a 0-d array. *)
Definition nd_iter (a : ndarray) : outcome (list pyval) :=
  match nd_shape a with
  | [] => Raise TypeError
  | n :: rest => Return (nd_item rest <$> chunks n (size_of rest) (nd_data a))
  end.

(** [a.tolist()]: nested lists of Python floats, a bare float at depth 0. *)
Fixpoint nd_tolist (shape : list nat) (data : list float) : pyval :=
  match shape with
  | [] => PyFloat (nth 0 data 0%float)
  | n :: rest => PyList (nd_tolist rest <$> chunks n (size_of rest) data)
  end.

(** ** The builtins the handler uses *)

(** [hasattr(e, 'tolist')] *)
Definition hasattr_tolist (e : pyval) : bool :=
  match e with
  | PyNdArray _ | NpFloat _ => true
  | PyFloat _ | PyStr _ | PyList _ | PyTuple _ => false
  end.

(** [e.tolist()] *)
Definition tolist (e : pyval) : outcome pyval :=
  match e with
  | PyNdArray a => Return (nd_tolist (nd_shape a) (nd_data a))
  | NpFloat x => Return (PyFloat x)
  | PyFloat _ | PyStr _ | PyList _ | PyTuple _ => Raise AttributeError
  end.

(** A [str] is kept as its UTF-8 bytes.  Iterating it gives its code
    points, so a leading byte stays with the continuation bytes
    ([10xxxxxx]) that follow it. *)
Definition is_continuation (c : Ascii.ascii) : bool :=
  match c with
  | Ascii.Ascii _ _ _ _ _ _ b6 b7 => b7 && negb b6
  end.

Fixpoint code_points (s : string) : list string :=
  match s with
  | EmptyString => []
  | String c s' =>
      match code_points s' with
      | String c' k :: rest =>
          if is_continuation c' then String c (String c' k) :: rest
          else String c EmptyString :: String c' k :: rest
      | rest => String c EmptyString :: rest
      end
  end.

Definition chars (s : string) : list pyval := PyStr <$> code_points s.

(** [iter(e)], as a [for] clause consumes it. *)
Definition py_iter (e : pyval) : outcome (list pyval) :=
  match e with
  | PyList xs | PyTuple xs => Return xs
  | PyStr s => Return (chars s)
  | PyNdArray a => nd_iter a
  | PyFloat _ | NpFloat _ => Raise TypeError
  end.

(** [list(e)] *)
Definition py_list (e : pyval) : outcome pyval :=
  xs ← py_iter e; mret (PyList xs).

(** [e.tolist() if hasattr(e, 'tolist') else list(e)] *)
Definition to_plain (e : pyval) : outcome pyval :=
  if hasattr_tolist e then tolist e else py_list e.

(** [[e.tolist() if hasattr(e, 'tolist') else list(e) for e in embeddings]] *)
Definition plain_lists (embeddings : pyval) : outcome (list pyval) :=
  es ← py_iter embeddings; mapM to_plain es.

(** ** The request schema *)

(** [class Texts(BaseModel): texts: list[str]] *)
Record Texts := mkTexts { texts : list string }.

(** What pydantic reports: the body is not an object, the field is
    missing, the field is not an array, item [i] is not a string. *)
Inductive validation_error :=
| ModelType
| Missing
| ListType
| StringType (i : nat).

Definition as_str (j : json) : option string :=
  match j with
  | JStr s => Some s
  | _ => None
  end.

(** Indices, counted from [i], of the items that are not strings. *)
Fixpoint not_str_at (i : nat) (items : list json) : list validation_error :=
  match items with
  | [] => []
  | j :: items' =>
      match as_str j with
      | Some _ => not_str_at (S i) items'
      | None => StringType i :: not_str_at (S i) items'
      end
  end.

(** Validation of a decoded JSON body against [Texts].  A [str] field
    takes a JSON string and nothing else, a [list] field takes a JSON
    array and nothing else, and keys the model does not declare are
    ignored (pydantic's default [extra = 'ignore']). *)
Definition validate_Texts (body : json) : list validation_error + Texts :=
  match body with
  | JObj fields =>
      match fields !! "texts" with
      | None => inl [Missing]
      | Some (JArr items) =>
          match not_str_at 0 items with
          | [] => inr (mkTexts (omap as_str items))
          | errs => inl errs
          end
      | Some _ => inl [ListType]
      end
  | _ => inl [ModelType]
  end.

(** ** Responses *)

(** What the framework can write as JSON when it renders a returned
    value: finite floats, strings, and lists or tuples of such values.
    [json.dumps(..., allow_nan=False)] refuses NaN and the infinities,
    and the encoder has no rule for a numpy array or a numpy scalar. *)
Fixpoint renders (v : pyval) : bool :=
  match v with
  | PyFloat x => is_finite x
  | PyStr _ => true
  | PyList xs | PyTuple xs => forallb renders xs
  | PyNdArray _ | NpFloat _ => false
  end.

Definition ValueError : pyexn := PyExn "ValueError".

(** A handler returns a [dict] with string keys. *)
Abbreviation response := (gmap string pyval).

(** What the framework sends back: the handler's value rendered as JSON
    (200), the validation errors (422), or the default reply to an
    exception that left the handler or the rendering (500). *)
Inductive reply :=
| Reply200 (body : response)
| Reply422 (errs : list validation_error)
| Reply500 (e : pyexn).


Inductive request :=
| GetHealth
| PostEmbed (body : json).

(** ** Vocabulary for stating properties *)

(** A one-dimensional numpy array holding [v]. *)
Definition row_vector (v : list float) : pyval :=
  PyNdArray (NdArray [length v] v).

(** The plain list of Python floats holding [v]. *)
Definition float_list (v : list float) : pyval := PyList (PyFloat <$> v).

(** [len(v)] of a list. *)
Definition py_len (v : pyval) : option nat :=
  match v with
  | PyList xs => Some (length xs)
  | _ => None
  end.

(** [response["embeddings"]], when it is a list. *)
Definition embeddings_of (r : response) : option (list pyval) :=
  match r !! "embeddings" with
  | Some (PyList xs) => Some xs
  | _ => None
  end.

(** The body is an object whose [texts] field is the array of the
    strings [ts]. *)
Definition has_texts (body : json) (ts : list string) : Prop :=
  exists fields, body = JObj fields /\ fields !! "texts" = Some (JArr (JStr <$> ts)).

(** Iterating [out] gives [n] one-dimensional arrays of [dim] numbers. *)
Definition batch_of (dim n : nat) (out : pyval) : Prop :=
  exists rows, py_iter out = Return (row_vector <$> rows)
    /\ length rows = n /\ Forall (fun v => length v = dim) rows.


(** The texts a request makes the handler hand to [encode], if it gets
    that far: a health check and a rejected body reach no handler code
    that calls the model. *)
Definition encode_argument (r : request) : option (list string) :=
  match r with
  | GetHealth => None
  | PostEmbed body =>
      match validate_Texts body with
      | inr payload => Some (texts payload)
      | inl _ => None
      end
  end.

(** Plain values: floats, strings, and lists or tuples of plain values;
    no numpy object at any depth. *)
Fixpoint is_plain (v : pyval) : bool :=
  match v with
  | PyFloat _ | PyStr _ => true
  | PyList xs | PyTuple xs => forallb is_plain xs
  | PyNdArray _ | NpFloat _ => false
  end.

(** ** A stand-in model, for running the adapter *)

(** A loaded model is either working, with a fixed output width, or one
    whose [encode] raises. *)
Inductive toy_model :=
| Working (width : nat)
| Broken.

Definition toy_load (width : nat) (name : string) : toy_model := Working width.

(** A one-row encoding that depends on the text through its length only. *)
Definition toy_vector (width : nat) (t : string) : list float :=
  replicate width
    (match String.length t with
     | 0 => 0%float
     | 1 => 1%float
     | _ => 0.5%float
     end).

(** [numpy.asarray] of a list of rows of the same width: shape [n; width],
    or shape [0] when there is no row. *)
Definition np_asarray (rows : list (list float)) : ndarray :=
  match rows with
  | [] => NdArray [0] []
  | r :: _ => NdArray [length rows; length r] (concat rows)
  end.

Definition toy_encode (m : toy_model) (ts : list string) : outcome pyval :=
  match m with
  | Working width => Return (PyNdArray (np_asarray (toy_vector width <$> ts)))
  | Broken => Raise (PyExn "RuntimeError")
  end.

(** ** The module *)

Section Adapter.

(** The embedding library: the type of a loaded model, its constructor
    and [encode(texts, show_progress_bar=False)], a function of the
    model and of the texts. *)
Variable Model : Type.
Variable SentenceTransformer : string -> Model.
Variable encode : Model -> list string -> outcome pyval.

(** The module globals Python binds at import time. *)
Record globals := Globals { MODEL_NAME : string; model : Model }.

(** The process: its globals, and the argument of every call made to
    [model.encode] so far, oldest first. *)
Record process := Process { genv : globals; encode_calls : list (list string) }.

(** Handler code: it may read the process, call the model and raise. *)
Definition run (A : Type) : Type := process -> outcome A * process.

#[local] Instance run_ret : MRet run := fun A a p => (Return a, p).
#[local] Instance run_bind : MBind run := fun A B k m p =>
  match m p with
  | (Return a, p') => k a p'
  | (Raise e, p') => (Raise e, p')
  end.

(** Evaluate a pure expression. *)
Definition eval {A} (o : outcome A) : run A := fun p => (o, p).

(** Read a global name. *)
Definition global {A} (name : globals -> A) : run A :=
  fun p => (Return (name (genv p)), p).

(** [model.encode(ts, show_progress_bar=False)] *)
Definition model_encode (ts : list string) : run pyval := fun p =>
  (encode (model (genv p)) ts,
   Process (genv p) (encode_calls p ++ [ts])).

(** [def health()] *)
Definition health : run response :=
  name ← global MODEL_NAME;
  mret ({[ "status" := PyStr "ok"; "model" := PyStr name ]} : response).

(** [def embed(payload: Texts)] *)
Definition embed (payload : Texts) : run response :=
  embeddings ← model_encode (texts payload);
  rows ← eval (plain_lists embeddings);
  mret ({[ "embeddings" := PyList rows ]} : response).

(** What the framework does with a handler's result: a returned value
    is rendered as JSON, and a value that cannot be rendered ends in the
    same default reply as an exception raised by the handler. *)
Definition respond (m : run response) : process -> reply * process := fun p =>
  match m p with
  | (Return body, p') =>
      if bool_decide (map_Forall (fun _ v => renders v = true) body)
      then (Reply200 body, p')
      else (Reply500 ValueError, p')
  | (Raise e, p') => (Reply500 e, p')
  end.

(** [@app.get("/health")] and [@app.post("/embed")]: the body of a POST
    is validated against the handler's parameter type before the
    handler is called. *)
Definition app (r : request) : process -> reply * process :=
  match r with
  | GetHealth => respond health
  | PostEmbed body =>
      match validate_Texts body with
      | inl errs => fun p => (Reply422 errs, p)
      | inr payload => respond (embed payload)
      end
  end.

(** Import of the module: the two assignments at top level.  The
    process environment is available and is not consulted. *)
Definition startup (environ : gmap string string) : process :=
  let name := "all-MiniLM-L6-v2" in
  Process (Globals name (SentenceTransformer name)) [].

(** Serving a sequence of requests, one after the other. *)
Fixpoint serve (rs : list request) (p : process) : list reply * process :=
  match rs with
  | [] => ([], p)
  | r :: rs' =>
      let '(out, p') := app r p in
      let '(outs, p'') := serve rs' p' in
      (out :: outs, p'')
  end.

End Adapter.

Arguments Globals {Model}.
Arguments MODEL_NAME {Model}.
Arguments model {Model}.
Arguments Process {Model}.
Arguments genv {Model}.
Arguments encode_calls {Model}.
Arguments health {Model}.
Arguments embed {Model}.
Arguments app {Model}.
Arguments serve {Model}.
Arguments startup {Model}.
Arguments respond {Model}.

Definition hello_world : json :=
  JObj {[ "texts" := JArr [JStr "hello"; JStr "world"] ]}.

Definition toy_process (width : nat) : process toy_model :=
  startup (toy_load width) ∅.

(** * Properties *)

(** ** Evaluation of expressions *)

Lemma mapM_Return {A B} (f : A -> outcome B) (g : A -> B) (l : list A) :
  (forall x, x ∈ l -> f x = Return (g x)) -> mapM f l = Return (g <$> l).
Proof.
  induction l as [|x l IH]; intros Hf; [reflexivity|].
  cbn. rewrite (Hf x) by left. cbn.
  rewrite IH by (intros y Hy; apply Hf; by right). reflexivity.
Qed.

Lemma chunks_length {A} (n k : nat) (l : list A) : length (chunks n k l) = n.
Proof. revert l. induction n as [|n IH]; intros l; cbn; [done|]. by rewrite IH. Qed.

Lemma chunks_singletons {A} (l : list A) :
  chunks (length l) 1 l = (fun x => [x]) <$> l.
Proof.
  induction l as [|x l IH]; [reflexivity|].
  cbn. rewrite take_0, drop_0. by rewrite IH.
Qed.



Lemma nd_tolist_row (v : list float) : nd_tolist [length v] v = float_list v.
Proof.
  unfold float_list. cbn. rewrite chunks_singletons, <- list_fmap_compose.
  reflexivity.
Qed.

Lemma to_plain_row (v : list float) : to_plain (row_vector v) = Return (float_list v).
Proof. unfold to_plain, row_vector. cbn [hasattr_tolist tolist nd_shape nd_data]. by rewrite nd_tolist_row. Qed.

Lemma plain_lists_rows (out : pyval) (rows : list (list float)) :
  py_iter out = Return (row_vector <$> rows) ->
  plain_lists out = Return (float_list <$> rows).
Proof.
  intros Hit. unfold plain_lists. rewrite Hit. cbn.
  rewrite (mapM_Return _ (fun e => match e with
                                   | PyNdArray a => float_list (nd_data a)
                                   | _ => e
                                   end)).
  - by rewrite <- list_fmap_compose.
  - intros e [v [-> _]]%list_elem_of_fmap. apply to_plain_row.
Qed.

(** A well-formed matrix is a batch of its rows, and so is the empty
    array [numpy.asarray([])]. *)
Lemma matrix_batch (n dim : nat) (data : list float) :
  dim <> 0 -> nd_wf (NdArray [n; dim] data) ->
  batch_of dim n (PyNdArray (NdArray [n; dim] data)).
Proof.
  unfold nd_wf, batch_of, size_of. cbn [nd_shape nd_data foldr].
  rewrite Nat.mul_1_r. intros Hdim Hwf.
  exists (chunks n dim data).
  assert (Hall : Forall (fun v : list float => length v = dim) (chunks n dim data)).
  { clear Hdim. revert data Hwf. induction n as [|n IH]; intros data Hwf; cbn.
    - constructor.
    - constructor.
      + rewrite length_take. lia.
      + apply IH. rewrite length_drop. lia. }
  split_and!; [|apply chunks_length|done].
  cbn. unfold nd_iter, size_of. cbn [nd_shape nd_data foldr].
  rewrite Nat.mul_1_r. f_equal.
  apply Forall_fmap_ext_1. eapply Forall_impl; [exact Hall|].
  intros v Hv. unfold row_vector. cbn. by rewrite Hv.
Qed.

Lemma empty_batch (dim : nat) : batch_of dim 0 (PyNdArray (np_asarray [])).
Proof. by exists []. Qed.

(** ** Validation *)

Lemma not_str_at_strings (i : nat) (ts : list string) : not_str_at i (JStr <$> ts) = [].
Proof. revert i. induction ts as [|t ts IH]; intros i; cbn; [done|apply IH]. Qed.

Lemma omap_as_str_strings (ts : list string) : omap as_str (JStr <$> ts) = ts.
Proof. induction ts as [|t ts IH]; cbn; [done|]. by rewrite IH. Qed.

Lemma not_str_at_nil (i : nat) (items : list json) :
  not_str_at i items = [] -> items = JStr <$> omap as_str items.
Proof.
  revert i. induction items as [|j items IH]; intros i; cbn; [done|].
  destruct j; cbn; try discriminate.
  intros H. f_equal. by eapply IH.
Qed.

Lemma validate_Texts_strings (fields : gmap string json) (ts : list string) :
  fields !! "texts" = Some (JArr (JStr <$> ts)) ->
  validate_Texts (JObj fields) = inr (mkTexts ts).
Proof.
  intros H. unfold validate_Texts. rewrite H.
  by rewrite not_str_at_strings, omap_as_str_strings.
Qed.

Lemma validate_Texts_inr (body : json) (payload : Texts) :
  validate_Texts body = inr payload -> has_texts body (texts payload).
Proof.
  unfold validate_Texts, has_texts.
  destruct body as [| | | | | |fields]; try discriminate.
  destruct (fields !! "texts") as [[| | | | |items|]|] eqn:Hf; try discriminate.
  destruct (not_str_at 0 items) eqn:Hn; [|discriminate].
  intros [= <-]. exists fields. split; [done|].
  cbn. by rewrite <- (not_str_at_nil 0 items).
Qed.

Lemma validate_Texts_inl (body : json) (errs : list validation_error) :
  validate_Texts body = inl errs -> errs <> [].
Proof.
  unfold validate_Texts.
  destruct body as [| | | | | |fields]; try (by intros [= <-]).
  destruct (fields !! "texts") as [[| | | | |items|]|]; try (by intros [= <-]).
  destruct (not_str_at 0 items); [discriminate|]. by intros [= <-].
Qed.

(** ** [tolist] against the indexed reading of the buffer *)




Lemma to_plain_item (rest : list nat) (block : list float) :
  to_plain (nd_item rest block) = Return (nd_tolist rest block).
Proof. by destruct rest. Qed.

Lemma plain_lists_ndarray (n : nat) (rest : list nat) (data : list float) :
  plain_lists (PyNdArray (NdArray (n :: rest) data))
  = Return (nd_tolist rest <$> chunks n (size_of rest) data).
Proof.
  unfold plain_lists. cbn.
  generalize (chunks n (size_of rest) data). intros blocks.
  induction blocks as [|b blocks IH]; [reflexivity|].
  cbn. rewrite to_plain_item. cbn. cbn in IH. by rewrite IH.
Qed.

Section AdapterFacts.

Context {Model : Type}.
Variable encode : Model -> list string -> outcome pyval.

(** ** The handlers, unfolded *)

Lemma embed_unfold (payload : Texts) (p : process Model) :
  embed encode payload p =
    (match encode (model (genv p)) (texts payload) with
     | Return out =>
         match plain_lists out with
         | Return rows => Return ({[ "embeddings" := PyList rows ]} : response)
         | Raise e => Raise e
         end
     | Raise e => Raise e
     end,
     Process (genv p) (encode_calls p ++ [texts payload])).
Proof.
  unfold embed, mbind, run_bind, model_encode, eval, mret, run_ret.
  destruct (encode _ _) as [out|e]; [|done].
  by destruct (plain_lists out).
Qed.

Lemma health_unfold (p : process Model) :
  health p =
    (Return ({[ "status" := PyStr "ok"; "model" := PyStr (MODEL_NAME (genv p)) ]} : response), p).
Proof. reflexivity. Qed.

(** ** Rendering the two responses *)

Lemma renders_embeddings (rows : list pyval) :
  bool_decide (map_Forall (fun _ v => renders v = true)
                 ({[ "embeddings" := PyList rows ]} : response))
  = forallb renders rows.
Proof.
  destruct (forallb renders rows) eqn:Hrows.
  - apply bool_decide_eq_true_2. by apply map_Forall_singleton.
  - apply bool_decide_eq_false_2. rewrite map_Forall_singleton. cbn. congruence.
Qed.

Lemma respond_embed_unfold (payload : Texts) (p : process Model) :
  respond (embed encode payload) p =
    (match encode (model (genv p)) (texts payload) with
     | Return out =>
         match plain_lists out with
         | Return rows =>
             if forallb renders rows
             then Reply200 {[ "embeddings" := PyList rows ]}
             else Reply500 ValueError
         | Raise e => Reply500 e
         end
     | Raise e => Reply500 e
     end,
     Process (genv p) (encode_calls p ++ [texts payload])).
Proof.
  unfold respond. rewrite embed_unfold.
  destruct (encode _ _) as [out|e]; [|done].
  destruct (plain_lists out) as [rows|e]; [|done].
  rewrite renders_embeddings. by destruct (forallb renders rows).
Qed.

Lemma respond_health (p : process Model) :
  respond health p =
    (Reply200 {[ "status" := PyStr "ok"; "model" := PyStr (MODEL_NAME (genv p)) ]}, p).
Proof.
  unfold respond. rewrite health_unfold.
  rewrite bool_decide_eq_true_2; [done|].
  apply map_Forall_insert_2; [done|]. by apply map_Forall_singleton.
Qed.

(** ** The globals are never written *)

Lemma respond_embed_genv (payload : Texts) (p : process Model) :
  genv (snd (respond (embed encode payload) p)) = genv p.
Proof. by rewrite respond_embed_unfold. Qed.

Lemma app_genv (r : request) (p : process Model) :
  genv (snd (app encode r p)) = genv p.
Proof.
  destruct r as [|body]; cbn [app]; [by rewrite respond_health|].
  destruct (validate_Texts body); [done|apply respond_embed_genv].
Qed.

Lemma serve_genv (rs : list request) (p : process Model) :
  genv (snd (serve encode rs p)) = genv p.
Proof.
  revert p. induction rs as [|r rs IH]; intros p; cbn; [done|].
  pose proof (app_genv r p) as Hr.
  destruct (app encode r p) as [out p']. cbn in Hr.
  specialize (IH p'). destruct (serve encode rs p') as [outs p''].
  cbn in *. congruence.
Qed.

End AdapterFacts.

(** * The claims of the specification *)

Section Claims.

Context {Model : Type}.
Variable SentenceTransformer : string -> Model.
Variable encode : Model -> list string -> outcome pyval.

(** C1.  One embedding per input string, in the order of the input.
    When the call to the model returns, for the texts [ts], an output
    whose rows are the model's encodings [encode_one t] of the strings
    of [ts] in order, [embed] returns a response whose [embeddings]
    field is a list of exactly [length ts] entries, and the entry at
    index [i] is the plain list of the encoding of the string at index
    [i]: nothing is reordered, and equal strings are not merged. *)
Theorem embed_one_per_input
    (p : process Model) (ts : list string) (out : pyval)
    (encode_one : string -> list float) :
  encode (model (genv p)) ts = Return out ->
  py_iter out = Return ((fun t => row_vector (encode_one t)) <$> ts) ->
  exists (r : response) (embs : list pyval),
    fst (embed encode (mkTexts ts) p) = Return r
    /\ embeddings_of r = Some embs
    /\ length embs = length ts
    /\ forall i t, ts !! i = Some t ->
         embs !! i = Some (float_list (encode_one t)).
Proof.
  intros Henc Hit.
  exists {[ "embeddings" := PyList (float_list <$> (encode_one <$> ts)) ]},
         (float_list <$> (encode_one <$> ts)).
  split_and!.
  - rewrite embed_unfold. cbn [fst texts]. rewrite Henc.
    rewrite (plain_lists_rows out (encode_one <$> ts)); [done|].
    by rewrite <- list_fmap_compose.
  - unfold embeddings_of. by rewrite lookup_singleton_eq.
  - by rewrite !length_fmap.
  - intros i t Hi. by rewrite !list_lookup_fmap, Hi.
Qed.

(** C2.  Every inner vector has the width of the model.  When the model
    returns, for the texts [ts], a batch of [length ts] rows of [dim]
    numbers each, [embed] returns a response whose [embeddings] field
    has [length ts] entries, each a list of length [dim]; with
    [dim = 384] and the texts [["hello"; "world"]] these are exactly 2
    lists of 384 numbers. *)
Theorem embed_vectors_have_model_width
    (p : process Model) (ts : list string) (out : pyval) (dim : nat) :
  encode (model (genv p)) ts = Return out ->
  batch_of dim (length ts) out ->
  exists (r : response) (embs : list pyval),
    fst (embed encode (mkTexts ts) p) = Return r
    /\ embeddings_of r = Some embs
    /\ length embs = length ts
    /\ Forall (fun e => py_len e = Some dim) embs.
Proof.
  intros Henc (rows & Hit & Hlen & Hdim).
  exists {[ "embeddings" := PyList (float_list <$> rows) ]}, (float_list <$> rows).
  split_and!.
  - rewrite embed_unfold. cbn [fst texts]. rewrite Henc.
    by rewrite (plain_lists_rows out rows).
  - unfold embeddings_of. by rewrite lookup_singleton_eq.
  - by rewrite length_fmap.
  - apply Forall_fmap. eapply Forall_impl; [exact Hdim|].
    intros v Hv. cbn. by rewrite length_fmap, Hv.
Qed.

(** C4.  The empty request.  When the model returns an output with no
    row for the empty list of texts, the request [{"texts": []}] is
    answered with status 200 and the body [{"embeddings": []}]. *)
Theorem embed_empty_request (p : process Model) (out : pyval) :
  encode (model (genv p)) [] = Return out ->
  py_iter out = Return [] ->
  fst (app encode (PostEmbed (JObj {[ "texts" := JArr [] ]})) p)
  = Reply200 {[ "embeddings" := PyList [] ]}.
Proof.
  intros Henc Hit. cbn [app].
  rewrite (validate_Texts_strings _ []) by apply lookup_singleton_eq.
  rewrite respond_embed_unfold. cbn [texts]. rewrite Henc.
  unfold plain_lists. by rewrite Hit.
Qed.

(** C3.  Validation stands between the request and the model.  A body
    that is not an object carrying a [texts] array of strings is
    answered with status 422 and a non-empty list of validation
    errors, and the process is left as it was: [encode] has not been
    called.  A body that carries such an array passes validation, the
    handler runs on exactly these texts, and [encode] is called with
    them. *)
Theorem embed_validates_before_encode (p : process Model) (body : json) :
  ((~ exists ts, has_texts body ts) ->
     exists errs, errs <> []
       /\ app encode (PostEmbed body) p = (Reply422 errs, p))
  /\ (forall ts, has_texts body ts ->
        validate_Texts body = inr (mkTexts ts)
        /\ app encode (PostEmbed body) p = respond (embed encode (mkTexts ts)) p
        /\ encode_calls (snd (app encode (PostEmbed body) p))
           = encode_calls p ++ [ts]).
Proof.
  split.
  - intros Hno. cbn [app].
    destruct (validate_Texts body) as [errs|payload] eqn:Hv.
    + exists errs. split; [by eapply validate_Texts_inl|done].
    + destruct Hno. exists (texts payload). by apply validate_Texts_inr.
  - intros ts (fields & -> & Hf).
    pose proof (validate_Texts_strings fields ts Hf) as Hv.
    split_and!; [done| |]; cbn [app]; rewrite Hv; [done|].
    by rewrite respond_embed_unfold.
Qed.

(** C5.  The health check.  After any sequence of requests served since
    startup, in any process environment, [GET /health] is answered with
    status 200 and the body [{"status": "ok", "model": "all-MiniLM-L6-v2"}],
    and it leaves the process as it found it. *)
Theorem health_always_fixed (environ : gmap string string) (rs : list request) :
  let p := snd (serve encode rs (startup SentenceTransformer environ)) in
  app encode GetHealth p
  = (Reply200 {[ "status" := PyStr "ok"; "model" := PyStr "all-MiniLM-L6-v2" ]}, p).
Proof.
  intros p. cbn [app]. rewrite respond_health.
  unfold p. by rewrite serve_genv.
Qed.

(** C6.  A failure of the model is not handled.  When [encode] raises
    [e] on the texts [ts], the handler raises the same [e], having
    called [encode] once and only once, and returns no response; the
    framework answers with its default reply to an unhandled exception. *)
Theorem embed_propagates_model_failure
    (p : process Model) (ts : list string) (e : pyexn) :
  encode (model (genv p)) ts = Raise e ->
  embed encode (mkTexts ts) p
  = (Raise e, Process (genv p) (encode_calls p ++ [ts]))
  /\ app encode (PostEmbed (JObj {[ "texts" := JArr (JStr <$> ts) ]})) p
     = (Reply500 e, Process (genv p) (encode_calls p ++ [ts])).
Proof.
  intros Henc.
  assert (Hembed : embed encode (mkTexts ts) p
                   = (Raise e, Process (genv p) (encode_calls p ++ [ts]))).
  { rewrite embed_unfold. cbn [texts]. by rewrite Henc. }
  split; [done|]. cbn [app].
  rewrite (validate_Texts_strings _ ts) by apply lookup_singleton_eq.
  unfold respond. by rewrite Hembed.
Qed.


(** C8.  The globals are fixed at startup.  No request, whether it
    succeeds, is rejected or fails, changes the model handle or the
    model name; after any sequence of requests they are the name
    assigned at import and the model loaded from it. *)
Theorem model_handle_never_mutated
    (environ : gmap string string) (rs : list request) :
  (forall r (p : process Model), genv (snd (app encode r p)) = genv p)
  /\ genv (snd (serve encode rs (startup SentenceTransformer environ)))
     = Globals "all-MiniLM-L6-v2" (SentenceTransformer "all-MiniLM-L6-v2").
Proof.
  split; [apply app_genv|]. by rewrite serve_genv.
Qed.

(** C9.  [embed] is a function of the texts and of the model handle.
    Two calls with equal texts, in processes that hold the same model,
    have equal outcomes, whatever else the two processes went through. *)
Theorem embed_deterministic (p1 p2 : process Model) (a b : Texts) :
  texts a = texts b ->
  model (genv p1) = model (genv p2) ->
  fst (embed encode a p1) = fst (embed encode b p2).
Proof.
  intros Ht Hm. rewrite !embed_unfold. cbn [fst]. by rewrite Ht, Hm.
Qed.

(** C10.  Unknown fields are ignored.  An object whose [texts] field is
    an array of strings passes validation whatever other fields it
    carries, and is answered as the object holding that field alone. *)
Theorem extra_fields_ignored
    (p : process Model) (fields : gmap string json) (ts : list string) :
  fields !! "texts" = Some (JArr (JStr <$> ts)) ->
  validate_Texts (JObj fields) = inr (mkTexts ts)
  /\ app encode (PostEmbed (JObj fields)) p
     = app encode (PostEmbed (JObj {[ "texts" := JArr (JStr <$> ts) ]})) p.
Proof.
  intros Hf. split; [by apply validate_Texts_strings|].
  cbn [app]. rewrite (validate_Texts_strings fields ts Hf).
  by rewrite (validate_Texts_strings _ ts) by apply lookup_singleton_eq.
Qed.

End Claims.

(** * The adapter at work on the stand-in model *)

Example hello_world_reply :
  fst (app toy_encode (PostEmbed hello_world) (toy_process 3))
  = Reply200 {[ "embeddings" :=
                  PyList [float_list [0.5; 0.5; 0.5]; float_list [0.5; 0.5; 0.5]]%float ]}.
Proof. vm_compute. reflexivity. Qed.

Example mixed_items_rejected :
  app toy_encode
    (PostEmbed (JObj {[ "texts" := JArr [JStr "a"; JInt 3; JNull] ]})) (toy_process 3)
  = (Reply422 [StringType 1; StringType 2], toy_process 3).
Proof. vm_compute. reflexivity. Qed.

Example texts_not_an_array_rejected :
  app toy_encode (PostEmbed (JObj {[ "texts" := JStr "hello" ]})) (toy_process 3)
  = (Reply422 [ListType], toy_process 3).
Proof. vm_compute. reflexivity. Qed.


(** Iterating a string gives its code points, not its bytes. *)
Example list_of_str_gives_code_points :
  py_list (PyStr "aé€") = Return (PyList [PyStr "a"; PyStr "é"; PyStr "€"]).
Proof. reflexivity. Qed.

(** A NaN in the output passes the conversion and stops the rendering. *)
Example nan_output_is_500 :
  fst (app (fun (_ : toy_model) (_ : list string) =>
              Return (PyList [row_vector [nan]]))
         (PostEmbed hello_world) (toy_process 3))
  = Reply500 ValueError.
Proof. vm_compute. reflexivity. Qed.

(** An output that cannot be iterated makes the handler raise. *)
Example scalar_output_raises :
  plain_lists (PyNdArray (NdArray [] [0.5]%float)) = Raise TypeError.
Proof. reflexivity. Qed.

Lemma embed_one_per_input_witness :
  exists (r : response) (embs : list pyval),
    fst (embed toy_encode (mkTexts ["a"; ""; "a"]) (toy_process 2)) = Return r
    /\ embeddings_of r = Some embs
    /\ length embs = 3
    /\ forall i t, ["a"; ""; "a"] !! i = Some t ->
         embs !! i = Some (float_list (toy_vector 2 t)).
Proof.
  apply (embed_one_per_input toy_encode (toy_process 2) ["a"; ""; "a"]
           (PyNdArray (np_asarray (toy_vector 2 <$> ["a"; ""; "a"])))
           (toy_vector 2)); reflexivity.
Defined.

Lemma embed_vectors_have_model_width_witness :
  exists (r : response) (embs : list pyval),
    fst (embed toy_encode (mkTexts ["hello"; "world"]) (toy_process 384)) = Return r
    /\ embeddings_of r = Some embs
    /\ length embs = 2
    /\ Forall (fun e => py_len e = Some 384) embs.
Proof.
  apply (embed_vectors_have_model_width toy_encode (toy_process 384)
           ["hello"; "world"]
           (PyNdArray (np_asarray (toy_vector 384 <$> ["hello"; "world"]))) 384).
  - reflexivity.
  - exists (toy_vector 384 <$> ["hello"; "world"]).
    split_and!; [vm_compute; reflexivity|reflexivity|].
    repeat constructor; vm_compute; reflexivity.
Defined.

Lemma embed_validates_before_encode_witness :
  (exists errs, errs <> []
     /\ app toy_encode (PostEmbed (JObj ∅)) (toy_process 3)
        = (Reply422 errs, toy_process 3))
  /\ (validate_Texts hello_world = inr (mkTexts ["hello"; "world"])
      /\ app toy_encode (PostEmbed hello_world) (toy_process 3)
         = respond (embed toy_encode (mkTexts ["hello"; "world"])) (toy_process 3)
      /\ encode_calls (snd (app toy_encode (PostEmbed hello_world) (toy_process 3)))
         = encode_calls (toy_process 3) ++ [["hello"; "world"]]).
Proof.
  split.
  - apply (proj1 (embed_validates_before_encode toy_encode (toy_process 3) (JObj ∅))).
    intros (ts & fields & Hbody & Hf).
    injection Hbody as <-. rewrite lookup_empty in Hf. discriminate Hf.
  - apply (proj2 (embed_validates_before_encode toy_encode (toy_process 3) hello_world)
             ["hello"; "world"]).
    exists {[ "texts" := JArr [JStr "hello"; JStr "world"] ]}.
    split; [reflexivity|apply lookup_singleton_eq].
Defined.

Lemma embed_empty_request_witness :
  fst (app toy_encode (PostEmbed (JObj {[ "texts" := JArr [] ]})) (toy_process 3))
  = Reply200 {[ "embeddings" := PyList [] ]}.
Proof.
  apply (embed_empty_request toy_encode (toy_process 3) (PyNdArray (np_asarray [])));
    reflexivity.
Defined.

Lemma embed_propagates_model_failure_witness :
  let p := Process (Globals "all-MiniLM-L6-v2" Broken) [] in
  embed toy_encode (mkTexts ["hello"]) p
  = (Raise (PyExn "RuntimeError"), Process (genv p) [["hello"]])
  /\ app toy_encode (PostEmbed (JObj {[ "texts" := JArr [JStr "hello"] ]})) p
     = (Reply500 (PyExn "RuntimeError"), Process (genv p) [["hello"]]).
Proof.
  intros p.
  apply (embed_propagates_model_failure toy_encode p ["hello"] (PyExn "RuntimeError")).
  reflexivity.
Defined.


Lemma embed_deterministic_witness :
  fst (embed toy_encode (mkTexts ["a"; "b"]) (toy_process 2))
  = fst (embed toy_encode (mkTexts ["a"; "b"])
           (snd (serve toy_encode [PostEmbed hello_world; GetHealth] (toy_process 2)))).
Proof.
  apply (embed_deterministic toy_encode); reflexivity.
Defined.

Lemma extra_fields_ignored_witness :
  let fields : gmap string json :=
    {[ "texts" := JArr [JStr "hello"]; "lang" := JStr "en"; "limit" := JInt 5 ]} in
  validate_Texts (JObj fields) = inr (mkTexts ["hello"])
  /\ app toy_encode (PostEmbed (JObj fields)) (toy_process 2)
     = app toy_encode (PostEmbed (JObj {[ "texts" := JArr [JStr "hello"] ]})) (toy_process 2).
Proof.
  intros fields.
  apply (extra_fields_ignored toy_encode (toy_process 2) fields ["hello"]).
  vm_compute. reflexivity.
Defined.

(** * Further properties of the handlers *)

(** ** List comprehension, item by item *)

Lemma mapM_Return_inv {A B} (f : A -> outcome B) (l : list A) (l' : list B) :
  mapM f l = Return l' -> Forall2 (fun x y => f x = Return y) l l'.
Proof.
  revert l'. induction l as [|x l IH]; intros l'; cbn.
  - intros [= <-]. constructor.
  - destruct (f x) as [y|e] eqn:Hx; cbn; [|discriminate].
    destruct (mapM f l) as [ys|e] eqn:Hl; cbn; [|discriminate].
    intros [= <-]. constructor; [done|by apply IH].
Qed.

Lemma to_plain_Raise (e : pyval) (err : pyexn) :
  to_plain e = Raise err -> err = TypeError /\ exists x, e = PyFloat x.
Proof. destruct e as [x| | | |a|]; cbn; try discriminate. intros [= <-]. eauto. Qed.

Lemma py_iter_Raise (out : pyval) (err : pyexn) :
  py_iter out = Raise err -> err = TypeError.
Proof.
  destruct out as [| | | |[[|n rest] data]|]; cbn; try discriminate;
    by intros [= <-].
Qed.

Lemma mapM_to_plain_Raise (es : list pyval) (err : pyexn) :
  mapM to_plain es = Raise err <->
  err = TypeError /\ exists x, PyFloat x ∈ es.
Proof.
  revert err. induction es as [|e es IH]; intros err; cbn.
  - split; [discriminate|]. intros [_ [x Hx]]. by apply elem_of_nil in Hx.
  - destruct (to_plain e) as [row|err'] eqn:He; cbn.
    + destruct (mapM to_plain es) as [rows|err'] eqn:Hes; cbn.
      * split; [discriminate|]. intros [-> [x Hx]].
        apply elem_of_cons in Hx as [<-|Hx]; [discriminate He|].
        assert (Hno : Return rows = Raise TypeError) by (apply IH; eauto).
        discriminate Hno.
      * destruct (proj1 (IH err') eq_refl) as [-> [x Hx]]. split.
        -- intros [= <-]. split; [done|]. exists x. by right.
        -- by intros [-> _].
    + apply to_plain_Raise in He as [-> [x ->]]. split.
      * intros [= <-]. split; [done|]. exists x. by left.
      * by intros [-> _].
Qed.

Lemma plain_lists_Raise (out : pyval) (err : pyexn) :
  plain_lists out = Raise err <->
  err = TypeError
  /\ (py_iter out = Raise TypeError
      \/ exists es x, py_iter out = Return es /\ PyFloat x ∈ es).
Proof.
  unfold plain_lists. destruct (py_iter out) as [es|err'] eqn:Hit; cbn.
  - rewrite mapM_to_plain_Raise. split.
    + intros [-> [x Hx]]. split; [done|]. right. by exists es, x.
    + intros [-> [Hno|(es' & x & [= <-] & Hx)]]; [discriminate|]. eauto.
  - apply py_iter_Raise in Hit as ->. split.
    + intros [= <-]. split; [done|by left].
    + by intros [-> _].
Qed.

Lemma forallb_fmap_true {A B} (f : B -> bool) (g : A -> B) (l : list A) :
  (forall x, f (g x) = true) -> forallb f (g <$> l) = true.
Proof. intros H. induction l as [|x l IH]; cbn; [done|]. by rewrite H, IH. Qed.

Lemma nd_tolist_plain (shape : list nat) (data : list float) :
  is_plain (nd_tolist shape data) = true.
Proof.
  revert data. induction shape as [|n rest IH]; intros data; cbn; [done|].
  by apply forallb_fmap_true.
Qed.

Lemma chunks_concat {A} (d : nat) (rows : list (list A)) :
  Forall (fun v => length v = d) rows ->
  chunks (length rows) d (concat rows) = rows.
Proof.
  induction 1 as [|r rows Hr _ IH]; cbn; [done|].
  by rewrite take_app_length', drop_app_length', IH.
Qed.


Section Handlers.

Context {Model : Type}.
Variable encode : Model -> list string -> outcome pyval.

Lemma app_reply_genv (r : request) (p p' : process Model) :
  genv p = genv p' -> fst (app encode r p) = fst (app encode r p').
Proof.
  intros Hg. destruct r as [|body]; cbn [app].
  - rewrite !respond_health. cbn. by rewrite Hg.
  - destruct (validate_Texts body) as [errs|payload]; [done|].
    rewrite !respond_embed_unfold. cbn. by rewrite Hg.
Qed.

Lemma app_encode_calls (r : request) (p : process Model) :
  encode_calls (snd (app encode r p))
  = encode_calls p ++ option_list (encode_argument r).
Proof.
  destruct r as [|body]; cbn [app encode_argument].
  - rewrite respond_health. cbn. by rewrite app_nil_r.
  - destruct (validate_Texts body) as [errs|payload]; cbn; [by rewrite app_nil_r|].
    by rewrite respond_embed_unfold.
Qed.

(** X1.  One call to the model per accepted request, and no other.  After
    serving any sequence of requests, the calls made to [encode] are the
    calls made before followed by the texts of the accepted [POST /embed]
    bodies, each as one whole list, in the order of the requests; health
    checks and rejected bodies add nothing, and a call that raised is
    not repeated. *)
Theorem serve_calls_encode_once_per_accepted_request
    (rs : list request) (p : process Model) :
  encode_calls (snd (serve encode rs p))
  = encode_calls p ++ omap encode_argument rs.
Proof.
  revert p. induction rs as [|r rs IH]; intros p; cbn [serve omap list_omap].
  - cbn. by rewrite app_nil_r.
  - pose proof (app_encode_calls r p) as Hr.
    destruct (app encode r p) as [out p']. cbn in Hr.
    specialize (IH p'). destruct (serve encode rs p') as [outs p''].
    cbn in *. rewrite IH, Hr, <- app_assoc. f_equal.
    by destruct (encode_argument r).
Qed.

(** X2.  When [embed] raises.  The handler raises [err] exactly when the
    model raised [err], or the model returned and [err] is a [TypeError]
    because the output cannot be iterated (a scalar, a 0-d array) or one
    of its items is a bare Python float, which has no [tolist] and
    cannot be passed to [list]. *)
Theorem embed_raises_iff (payload : Texts) (p : process Model) (err : pyexn) :
  fst (embed encode payload p) = Raise err <->
  encode (model (genv p)) (texts payload) = Raise err
  \/ exists out,
       encode (model (genv p)) (texts payload) = Return out
       /\ err = TypeError
       /\ (py_iter out = Raise TypeError
           \/ exists es x, py_iter out = Return es /\ PyFloat x ∈ es).
Proof.
  rewrite embed_unfold. cbn [fst].
  destruct (encode _ _) as [out|e].
  - destruct (plain_lists out) as [rows|e] eqn:Hp.
    + split; [discriminate|]. intros [Hno|(out' & [= <-] & Herr)]; [discriminate|].
      apply plain_lists_Raise in Herr. congruence.
    + split.
      * intros [= <-]. right. exists out. split; [done|].
        by apply plain_lists_Raise.
      * intros [Hno|(out' & [= <-] & Herr)]; [discriminate|].
        apply plain_lists_Raise in Herr. congruence.
  - split.
    + intros [= <-]. by left.
    + intros [[= <-]|(out' & Hno & _)]; [done|discriminate].
Qed.

(** X4.  Replies do not depend on what was served before.  Serving a
    sequence of requests gives each request the reply it would get if it
    were the first one: no request influences the reply to a later one. *)
Theorem serve_replies_independent (rs : list request) (p : process Model) :
  fst (serve encode rs p) = (fun r => fst (app encode r p)) <$> rs.
Proof.
  assert (Hgen : forall p', genv p' = genv p ->
            fst (serve encode rs p') = (fun r => fst (app encode r p)) <$> rs).
  { induction rs as [|r rs IH]; intros p' Hg; cbn [serve]; [done|].
    pose proof (app_genv encode r p') as Hr.
    pose proof (app_reply_genv r p' p Hg) as Hout.
    destruct (app encode r p') as [out p1]. cbn in Hr, Hout.
    specialize (IH p1 ltac:(congruence)).
    destruct (serve encode rs p1) as [outs p2]. cbn in *. by rewrite Hout, IH. }
  by apply Hgen.
Qed.


End Handlers.

(** X6.  A matrix or a list of rows: the conversion does not tell them
    apart.  For rows of one width, the rows stacked into one array, the
    rows handed over as a Python list of one-dimensional arrays and the
    same as a tuple all convert to the same lists of floats. *)
Theorem stacked_or_listed_rows (d : nat) (rows : list (list float)) :
  Forall (fun v => length v = d) rows ->
  plain_lists (PyNdArray (np_asarray rows)) = Return (float_list <$> rows)
  /\ plain_lists (PyList (row_vector <$> rows)) = Return (float_list <$> rows)
  /\ plain_lists (PyTuple (row_vector <$> rows)) = Return (float_list <$> rows).
Proof.
  intros Hd. split_and!; [|by apply plain_lists_rows..].
  destruct Hd as [|r rows Hr Hrows]; [reflexivity|].
  unfold np_asarray. rewrite plain_lists_ndarray.
  unfold size_of. cbn [foldr]. rewrite Nat.mul_1_r, Hr.
  rewrite (chunks_concat d (r :: rows)) by by constructor.
  f_equal. apply Forall_fmap_ext_1. constructor.
  - by rewrite <- Hr, nd_tolist_row.
  - eapply Forall_impl; [exact Hrows|]. intros v <-. apply nd_tolist_row.
Qed.

(** X7.  Items that have [tolist] come out plain.  When every item of
    the output has [tolist], as the items of an array do, every entry of
    the converted list is made of Python lists and floats only: no numpy
    object is left at any depth. *)
Theorem items_with_tolist_become_plain (out : pyval) (es rows : list pyval) :
  py_iter out = Return es ->
  Forall (fun e => hasattr_tolist e = true) es ->
  plain_lists out = Return rows ->
  forallb is_plain rows = true.
Proof.
  intros Hit Has. unfold plain_lists. rewrite Hit. cbn.
  intros Hrows%mapM_Return_inv. clear Hit.
  induction Hrows as [|e row es rows He _ IH]; [done|].
  apply Forall_cons in Has as [Hattr Has]. cbn. rewrite (IH Has), andb_true_r.
  destruct e as [| | | |a|]; try discriminate Hattr; cbn in He.
  - injection He as <-. apply nd_tolist_plain.
  - by injection He as <-.
Qed.

Lemma embed_raises_iff_witness :
  fst (embed (fun (_ : toy_model) (_ : list string) => Return (PyList [PyFloat 0.5]))
         (mkTexts ["a"]) (toy_process 2))
  = Raise TypeError.
Proof.
  apply (proj2 (embed_raises_iff
                  (fun (_ : toy_model) (_ : list string) => Return (PyList [PyFloat 0.5]))
                  (mkTexts ["a"]) (toy_process 2) TypeError)).
  right. exists (PyList [PyFloat 0.5]).
  split; [reflexivity|]. split; [reflexivity|].
  right. exists [PyFloat 0.5], 0.5%float.
  split; [reflexivity|apply list_elem_of_here].
Defined.


Lemma stacked_or_listed_rows_witness :
  let rows := [[1; 2]; [3; 4]; [5; 6]]%float in
  plain_lists (PyNdArray (NdArray [3; 2] [1; 2; 3; 4; 5; 6]%float))
  = Return (float_list <$> rows)
  /\ plain_lists (PyList (row_vector <$> rows)) = Return (float_list <$> rows)
  /\ plain_lists (PyTuple (row_vector <$> rows)) = Return (float_list <$> rows).
Proof.
  intros rows. apply (stacked_or_listed_rows 2 rows).
  repeat constructor.
Defined.

Lemma items_with_tolist_become_plain_witness :
  forallb is_plain [float_list [1; 2]; float_list [3; 4]]%float = true.
Proof.
  apply (items_with_tolist_become_plain
           (PyNdArray (NdArray [2; 2] [1; 2; 3; 4]%float))
           [row_vector [1; 2]; row_vector [3; 4]]%float).
  - reflexivity.
  - repeat constructor.
  - reflexivity.
Defined.
